(** * The text-to-SQL query generator's exception classes

    A shallow embedding of
    [lambda/aws-text-to-sql/query_generator/custom_errors.py]: three
    subclasses of [Exception], each with an [__init__] that hands its
    argument to the base initialiser and then stores an f-string in the
    instance attribute [message].

    Python objects are mutable and are handled by reference, so instances
    live in a store and the initialisers are written in a small
    state-and-exception monad over it. *)

From Stdlib Require Import ZArith String Ascii DecimalString.
From stdpp Require Import gmap strings list fin_maps.

(** ** Outcomes and values *)

(** A Python computation returns a value or raises; [exc] is the name of
    the raised exception's class. *)
Inductive outcome (A : Type) : Type :=
| Ok (a : A)
| Raise (exc : string).
Arguments Ok {A} a.
Arguments Raise {A} exc.

(** The values a caller can hand to a constructor.  [PyObject] stands for
    an instance of any other class: what the interpreter observes of it
    here is what [format(v, "")] and [str(v)] do, each of which returns
    text or raises. *)
Inductive pyval : Type :=
| PyStr (s : string)
| PyInt (z : Z)
| PyBool (b : bool)
| PyNone
| PyObject (fmt : outcome string) (str : outcome string).

Definition decimal (z : Z) : string := NilZero.string_of_int (Z.to_int z).

(** CPython's default [sys.int_info.default_max_str_digits]: converting
    an integer of more decimal digits to text raises [ValueError]. *)
Definition int_max_str_digits : nat := 4300.

Definition int_str (z : Z) : outcome string :=
  if int_max_str_digits <? String.length (decimal (Z.abs z))
  then Raise "ValueError"
  else Ok (decimal z).

(** [str(v)]. *)
Definition py_str (v : pyval) : outcome string :=
  match v with
  | PyStr s => Ok s
  | PyInt z => int_str z
  | PyBool b => Ok (if b then "True" else "False")
  | PyNone => Ok "None"
  | PyObject _ str => str
  end.

(** [format(v, "")], which is what a replacement field [{v}] of an
    f-string evaluates.  For the built-in types it agrees with [str]. *)
Definition py_format (v : pyval) : outcome string :=
  match v with
  | PyObject fmt _ => fmt
  | _ => py_str v
  end.

(** ** Instances and the store *)

Inductive ExnClass : Type :=
| LLMNotLoadedException
| StrategyNotFoundException
| QueryGenerationException.

Global Instance ExnClass_eq_dec : EqDecision ExnClass.
Proof. solve_decision. Defined.

(** An exception instance: its class, the [args] tuple kept by
    [BaseException], and the instance dictionary. *)
Record instance : Type := Instance {
  inst_class : ExnClass;
  inst_args : list pyval;
  inst_dict : gmap string pyval
}.

Abbreviation loc := positive (only parsing).
Abbreviation heap := (gmap positive instance) (only parsing).

(** ** The monad *)

Definition M (A : Type) : Type := heap → outcome A * heap.

Definition ret {A} (a : A) : M A := λ h, (Ok a, h).

Definition bind {A B} (m : M A) (k : A → M B) : M B :=
  λ h, match m h with
       | (Ok a, h') => k a h'
       | (Raise e, h') => (Raise e, h')
       end.

Definition lift {A} (o : outcome A) : M A := λ h, (o, h).

Notation "x <- m ;; k" := (bind m (λ x, k))
  (at level 100, m at next level, right associativity).
Notation "m ;;; k" := (bind m (λ _, k))
  (at level 100, right associativity).

(** ** Object primitives *)

(** [BaseException.__new__(cls, *args)]: a new object of class [cls]
    whose [args] are already the call's arguments and whose dictionary is
    empty. *)
Definition BaseException___new__ (cls : ExnClass) (args : list pyval) : M loc :=
  λ h, let l := fresh (dom h) in (Ok l, <[l := Instance cls args ∅]> h).

(** [BaseException.__init__(self, *args)]: [self.args = args]. *)
Definition BaseException___init__ (self : loc) (args : list pyval) : M unit :=
  λ h, (Ok tt,
        alter (λ o, Instance (inst_class o) args (inst_dict o)) self h).

(** [self.<name> = v] on an instance with a dictionary. *)
Definition setattr (self : loc) (name : string) (v : pyval) : M unit :=
  λ h, (Ok tt,
        alter (λ o, Instance (inst_class o) (inst_args o)
                      (<[name := v]> (inst_dict o))) self h).

(** [self.<name>] for a name that is looked up in the instance
    dictionary, that is, a name that neither the three classes nor their
    bases bind at class level: [message] and [code] are such names.  The
    result is the dictionary's entry, or [AttributeError].  Names bound
    at class level are read with their own observations: [args] with
    [get_args], the class with [type_of], the dictionary with
    [dict_keys]. *)
Definition getattr (self : loc) (name : string) : M pyval :=
  λ h, match h !! self with
       | Some o =>
           match inst_dict o !! name with
           | Some v => (Ok v, h)
           | None => (Raise "AttributeError", h)
           end
       | None => (Raise "AttributeError", h)
       end.

(** [self.args]. *)
Definition get_args (self : loc) : M (list pyval) :=
  λ h, match h !! self with
       | Some o => (Ok (inst_args o), h)
       | None => (Raise "AttributeError", h)
       end.

(** ** The three initialisers *)

Definition LLMNotLoadedException___init__ (self : loc) (message : pyval) : M unit :=
  BaseException___init__ self [message] ;;;
  s <- lift (py_format message) ;;
  setattr self "message"
    (PyStr ("[501] The LLM " +:+ s +:+ " was not loaded correctly")).

Definition StrategyNotFoundException___init__ (self : loc) (message : pyval) : M unit :=
  BaseException___init__ self [message] ;;;
  s <- lift (py_format message) ;;
  setattr self "message"
    (PyStr ("[503] The selected strategy " +:+ s +:+ " doesn't exist")).

Definition QueryGenerationException___init__ (self : loc) (message : pyval) : M unit :=
  BaseException___init__ self [message] ;;;
  s <- lift (py_format message) ;;
  setattr self "message"
    (PyStr ("[502] Failed to generate query " +:+ s +:+ ".")).

Definition init_of (cls : ExnClass) : loc → pyval → M unit :=
  match cls with
  | LLMNotLoadedException => LLMNotLoadedException___init__
  | StrategyNotFoundException => StrategyNotFoundException___init__
  | QueryGenerationException => QueryGenerationException___init__
  end.

(** The call [cls(message)]: [type.__call__] allocates with [__new__],
    runs the class's [__init__] on the new object and returns it. *)
Definition construct (cls : ExnClass) (message : pyval) : M loc :=
  self <- BaseException___new__ cls [message] ;;
  init_of cls self message ;;;
  ret self.

(** ** Observations on an instance *)

(** [type(self)]. *)
Definition type_of (self : loc) : M ExnClass :=
  λ h, match h !! self with
       | Some o => (Ok (inst_class o), h)
       | None => (Raise "AttributeError", h)
       end.

(** The names bound in [self.__dict__]. *)
Definition dict_keys (self : loc) : M (gset string) :=
  λ h, match h !! self with
       | Some o => (Ok (dom (inst_dict o)), h)
       | None => (Raise "AttributeError", h)
       end.

(** The attribute [name] of a newly constructed exception. *)
Definition attribute_of (cls : ExnClass) (detail : pyval) (name : string) : M pyval :=
  e <- construct cls detail ;;
  getattr e name.

Definition message_of (cls : ExnClass) (detail : pyval) : M pyval :=
  attribute_of cls detail "message".

Definition args_of (cls : ExnClass) (detail : pyval) : M (list pyval) :=
  e <- construct cls detail ;;
  get_args e.

Section Rendering.

(** [str] of a tuple of two or more values.  It belongs to the
    interpreter, and no constructor of this module builds such an [args]. *)
Variable tuple_str : list pyval → outcome string.

(** [BaseException.__str__], which the three classes inherit: the empty
    string without arguments, [str] of the argument when there is one,
    [str] of the tuple otherwise. *)
Definition BaseException___str__ (self : loc) : M string :=
  a <- get_args self ;;
  match a with
  | [] => ret ""
  | [x] => lift (py_str x)
  | _ => lift (tuple_str a)
  end.

(** [str(cls(detail))]. *)
Definition str_of (cls : ExnClass) (detail : pyval) : M string :=
  e <- construct cls detail ;;
  BaseException___str__ e.

End Rendering.

(** ** The module as a whole *)


(** [try: m / except Exception: pass]. *)
Definition attempt {A} (m : M A) : M unit :=
  λ h, (Ok tt, (m h).2).

(** The text an initialiser stores, given the formatted argument. *)
Definition message_text (cls : ExnClass) (s : string) : string :=
  match cls with
  | LLMNotLoadedException => "[501] The LLM " +:+ s +:+ " was not loaded correctly"
  | StrategyNotFoundException => "[503] The selected strategy " +:+ s +:+ " doesn't exist"
  | QueryGenerationException => "[502] Failed to generate query " +:+ s +:+ "."
  end.

(** [cls.__init__(self, v)], of which [self.__init__(v)] is the case
    [cls = type(self)].  Each initialiser starts with the zero-argument
    [super()], which raises [TypeError] unless [self] is an instance of
    [cls]; the three classes derive from [Exception] directly, so that is
    when [type(self)] is [cls]. *)
Definition call_init (cls : ExnClass) (self : loc) (v : pyval) : M unit :=
  c <- type_of self ;;
  if decide (c = cls) then init_of cls self v else lift (Raise "TypeError").

(** What a client can run of the module: call a class, or run a class's
    initialiser on an object that exists already. *)
Inductive module_op : Type :=
| Call (cls : ExnClass) (v : pyval)
| Init (cls : ExnClass) (self : loc) (v : pyval).

(** One operation, with its result or failure dropped. *)
Definition run_op (op : module_op) : M unit :=
  match op with
  | Call cls v => attempt (construct cls v)
  | Init cls self v => attempt (call_init cls self v)
  end.

Fixpoint run_ops (ops : list module_op) : M unit :=
  match ops with
  | [] => ret tt
  | op :: ops' => run_op op ;;; run_ops ops'
  end.


(** ** Examples *)

Example scenario_1 :
  (message_of LLMNotLoadedException (PyStr "gpt-sql-7b") ∅).1
  = Ok (PyStr "[501] The LLM gpt-sql-7b was not loaded correctly").
Proof. vm_compute. reflexivity. Qed.

Example scenario_2 :
  (message_of StrategyNotFoundException (PyStr "zero-shot-v2") ∅).1
  = Ok (PyStr "[503] The selected strategy zero-shot-v2 doesn't exist").
Proof. vm_compute. reflexivity. Qed.

Example scenario_3 :
  (message_of QueryGenerationException (PyStr "ambiguous join condition") ∅).1
  = Ok (PyStr "[502] Failed to generate query ambiguous join condition.").
Proof. vm_compute. reflexivity. Qed.

Example empty_detail :
  (message_of QueryGenerationException (PyStr "") ∅).1
  = Ok (PyStr "[502] Failed to generate query .").
Proof. vm_compute. reflexivity. Qed.

Example template_tokens_in_detail :
  (message_of LLMNotLoadedException (PyStr "[501] {modelId}") ∅).1
  = Ok (PyStr "[501] The LLM [501] {modelId} was not loaded correctly").
Proof. vm_compute. reflexivity. Qed.

(** ** Equations of the embedding *)

Lemma construct_eq cls v (h : heap) :
  construct cls v h =
  match py_format v with
  | Ok s =>
      (Ok (fresh (dom h)),
       <[fresh (dom h) :=
           Instance cls [v] {["message" := PyStr (message_text cls s)]}]> h)
  | Raise x =>
      (Raise x, <[fresh (dom h) := Instance cls [v] ∅]> h)
  end.
Proof.
  unfold construct, bind, BaseException___new__, ret.
  destruct cls; simpl;
    unfold LLMNotLoadedException___init__, StrategyNotFoundException___init__,
      QueryGenerationException___init__, bind, BaseException___init__, lift,
      setattr;
    rewrite alter_insert_eq; simpl;
    destruct (py_format v) as [s|x]; simpl; trivial;
    rewrite alter_insert_eq; simpl; rewrite insert_empty; reflexivity.
Qed.

Lemma fresh_lookup (h : heap) : h !! fresh (dom h) = None.
Proof. apply not_elem_of_dom, is_fresh. Qed.

Lemma construct_ok cls v s (h : heap) :
  py_format v = Ok s →
  construct cls v h =
  (Ok (fresh (dom h)),
   <[fresh (dom h) :=
       Instance cls [v] {["message" := PyStr (message_text cls s)]}]> h).
Proof. intros Hf. rewrite construct_eq, Hf. reflexivity. Qed.

Lemma attribute_of_ok cls v s name (h : heap) :
  py_format v = Ok s →
  (attribute_of cls v name h).1 =
  if decide (name = "message") then Ok (PyStr (message_text cls s))
  else Raise "AttributeError".
Proof.
  intros Hf. unfold attribute_of, bind. rewrite (construct_ok _ _ _ _ Hf).
  unfold getattr. rewrite lookup_insert_eq. simpl.
  destruct (decide (name = "message")) as [->|Hne].
  - rewrite lookup_singleton_eq. reflexivity.
  - rewrite lookup_singleton_ne by congruence. reflexivity.
Qed.

Lemma message_of_ok cls v s (h : heap) :
  py_format v = Ok s →
  (message_of cls v h).1 = Ok (PyStr (message_text cls s)).
Proof. intros Hf. unfold message_of. rewrite (attribute_of_ok _ _ s) by done. done. Qed.

Lemma message_of_raise cls v x (h : heap) :
  py_format v = Raise x → (message_of cls v h).1 = Raise x.
Proof.
  intros Hf. unfold message_of, attribute_of, bind.
  rewrite construct_eq, Hf. reflexivity.
Qed.

(** A constructor call leaves every object that was already in the store
    as it was: it writes to the object it has just allocated only. *)
Lemma construct_frame cls v (h : heap) e o :
  h !! e = Some o → (construct cls v h).2 !! e = Some o.
Proof.
  intros He. rewrite construct_eq.
  assert (fresh (dom h) ≠ e) as Hne.
  { intros <-. rewrite fresh_lookup in He. discriminate. }
  destruct (py_format v); simpl; rewrite lookup_insert_ne; done.
Qed.

(** What an initialiser does to an object that is in the store. *)
Lemma init_of_eq cls e v o (h : heap) :
  h !! e = Some o →
  init_of cls e v h =
  match py_format v with
  | Ok s =>
      (Ok tt,
       <[e := Instance (inst_class o) [v]
                (<["message" := PyStr (message_text cls s)]> (inst_dict o))]> h)
  | Raise x =>
      (Raise x, <[e := Instance (inst_class o) [v] (inst_dict o)]> h)
  end.
Proof.
  intros He.
  destruct cls; simpl;
    unfold LLMNotLoadedException___init__, StrategyNotFoundException___init__,
      QueryGenerationException___init__, bind, BaseException___init__, lift,
      setattr;
    rewrite (alter_alt_Some _ _ _ _ He); simpl;
    destruct (py_format v) as [s|x]; simpl; trivial;
    rewrite alter_insert_eq; reflexivity.
Qed.

Lemma call_init_frame cls self v (h : heap) e o :
  h !! e = Some o →
  self ≠ e ∨ cls ≠ inst_class o →
  (call_init cls self v h).2 !! e = Some o.
Proof.
  intros He Hother. unfold call_init, bind, type_of.
  destruct (h !! self) as [o'|] eqn:Hself; simpl; [|done].
  destruct (decide (inst_class o' = cls)) as [Hcls|Hcls]; [|done].
  assert (self ≠ e) as Hne.
  { intros ->. rewrite He in Hself. injection Hself as <-.
    destruct Hother as [Hne|Hne]; [done | by apply Hne]. }
  rewrite (init_of_eq cls self v o' h Hself).
  destruct (py_format v); simpl; by rewrite lookup_insert_ne.
Qed.

Lemma run_op_ok op (h : heap) : (run_op op h).1 = Ok tt.
Proof. by destruct op. Qed.

Lemma run_ops_ok ops (h : heap) : (run_ops ops h).1 = Ok tt.
Proof.
  revert h. induction ops as [|op ops IH]; intros h; simpl; [done|].
  unfold bind. pose proof (run_op_ok op h) as Hop.
  destruct (run_op op h) as [r h']. simpl in Hop. subst r. apply IH.
Qed.

Lemma run_ops_cons op ops (h : heap) :
  (run_ops (op :: ops) h).2 = (run_ops ops (run_op op h).2).2.
Proof.
  simpl. unfold bind. pose proof (run_op_ok op h) as Hop.
  destruct (run_op op h) as [r h']. simpl in Hop. by subst r.
Qed.

(** An operation other than the instance's own initialiser leaves the
    instance as it is. *)
Lemma run_op_frame op (h : heap) e o :
  h !! e = Some o →
  (∀ v, op ≠ Init (inst_class o) e v) →
  (run_op op h).2 !! e = Some o.
Proof.
  intros He Hop. destruct op as [cls v|cls self v]; simpl.
  - by apply construct_frame.
  - apply call_init_frame; [done|].
    destruct (decide (self = e)) as [->|]; [|by left].
    destruct (decide (cls = inst_class o)) as [->|]; [|by right].
    by destruct (Hop v).
Qed.

Lemma run_ops_frame ops (h : heap) e o :
  h !! e = Some o →
  (∀ v, Init (inst_class o) e v ∉ ops) →
  (run_ops ops h).2 !! e = Some o.
Proof.
  revert h. induction ops as [|op ops IH]; intros h He Hops; [done|].
  rewrite run_ops_cons. apply IH.
  - apply run_op_frame; [done|]. intros v ->. apply (Hops v), elem_of_cons. by left.
  - intros v Hin. apply (Hops v), elem_of_cons. by right.
Qed.




Lemma string_length_append (s t : string) :
  String.length (s +:+ t) = String.length s + String.length t.
Proof. induction s as [|a s IH]; simpl; [done|]. by rewrite IH. Qed.

(** ** The message of each class *)

(** C2: for every string [m], [LLMNotLoadedException(m).message] is
    exactly ["[501] The LLM "], then [m] unchanged, then
    [" was not loaded correctly"]. *)
Theorem C2_model_not_loaded_message (m : string) (h : heap) :
  (message_of LLMNotLoadedException (PyStr m) h).1
  = Ok (PyStr ("[501] The LLM " +:+ m +:+ " was not loaded correctly")).
Proof. exact (message_of_ok LLMNotLoadedException (PyStr m) m h eq_refl). Qed.

(** C3: for every string [s], [StrategyNotFoundException(s).message] is
    exactly ["[503] The selected strategy "], then [s], then
    [" doesn't exist"]. *)
Theorem C3_strategy_not_found_message (s : string) (h : heap) :
  (message_of StrategyNotFoundException (PyStr s) h).1
  = Ok (PyStr ("[503] The selected strategy " +:+ s +:+ " doesn't exist")).
Proof. exact (message_of_ok StrategyNotFoundException (PyStr s) s h eq_refl). Qed.

(** C4: for every string [d], [QueryGenerationException(d).message] is
    exactly ["[502] Failed to generate query "], then [d], then the
    closing full stop. *)
Theorem C4_query_generation_message (d : string) (h : heap) :
  (message_of QueryGenerationException (PyStr d) h).1
  = Ok (PyStr ("[502] Failed to generate query " +:+ d +:+ ".")).
Proof. exact (message_of_ok QueryGenerationException (PyStr d) d h eq_refl). Qed.

(** ** The code *)

(** C1, as stated, fails: a constructed exception has no [code]
    attribute.  Reading it raises [AttributeError]; in particular it is
    not the integer 501. *)
Lemma C1_no_code_attribute :
  (attribute_of LLMNotLoadedException (PyStr "gpt-sql-7b") "code" ∅).1
    = Raise "AttributeError"
  ∧ (attribute_of LLMNotLoadedException (PyStr "gpt-sql-7b") "code" ∅).1
    ≠ Ok (PyInt 501).
Proof. split; [vm_compute; reflexivity | vm_compute; discriminate]. Qed.

(** C1, amended: for every detail string the code is carried as the
    bracketed prefix of [message] only, fixed by the class -- ["[501] "]
    for [LLMNotLoadedException], ["[502] "] for
    [QueryGenerationException], ["[503] "] for
    [StrategyNotFoundException] -- whatever the detail; no class stores a
    separate [code] attribute. *)
Theorem C1_code_is_message_prefix (d : string) (h : heap) :
  (∀ cls, (attribute_of cls (PyStr d) "code" h).1 = Raise "AttributeError")
  ∧ (∃ rest, (message_of LLMNotLoadedException (PyStr d) h).1
             = Ok (PyStr ("[501] " +:+ rest)))
  ∧ (∃ rest, (message_of QueryGenerationException (PyStr d) h).1
             = Ok (PyStr ("[502] " +:+ rest)))
  ∧ (∃ rest, (message_of StrategyNotFoundException (PyStr d) h).1
             = Ok (PyStr ("[503] " +:+ rest))).
Proof.
  split; [|repeat split].
  - intros cls. rewrite (attribute_of_ok cls (PyStr d) d) by reflexivity.
    rewrite decide_False by discriminate. reflexivity.
  - eexists. rewrite (message_of_ok _ (PyStr d) d) by reflexivity.
    simpl. reflexivity.
  - eexists. rewrite (message_of_ok _ (PyStr d) d) by reflexivity.
    simpl. reflexivity.
  - eexists. rewrite (message_of_ok _ (PyStr d) d) by reflexivity.
    simpl. reflexivity.
Qed.

(** ** Construction *)

(** C5: construction is total on strings.  For every class, every string
    (the empty one and those that repeat the template's own tokens
    included) and every store, the call returns a new object of that
    class, with the string as its only argument and a [message]; it
    rejects nothing and raises nothing. *)
Theorem C5_construction_total (cls : ExnClass) (d : string) (h : heap) :
  ∃ e h' t,
    construct cls (PyStr d) h = (Ok e, h')
    ∧ h !! e = None
    ∧ h' !! e = Some (Instance cls [PyStr d] {["message" := PyStr t]}).
Proof.
  exists (fresh (dom h)). eexists. exists (message_text cls d).
  split; [apply (construct_ok cls (PyStr d) d); reflexivity|].
  split; [apply fresh_lookup | apply lookup_insert_eq].
Qed.

(** C6: the message is a function of the class and the detail.  Two
    constructions of one class from the same detail, in whatever stores,
    give the same [message]; for a string detail that is a text. *)
Theorem C6_message_deterministic (cls : ExnClass) (d : string) (h1 h2 : heap) :
  (message_of cls (PyStr d) h1).1 = (message_of cls (PyStr d) h2).1
  ∧ ∃ t, (message_of cls (PyStr d) h1).1 = Ok (PyStr t).
Proof.
  rewrite !(message_of_ok cls (PyStr d) d) by reflexivity. eauto.
Qed.



(** ** After construction *)

(** C8, as stated, fails: the message is derived again when the
    instance's initialiser is run again.  After [e = cls("a")] and
    [e.__init__("b")] the message of [e] is the one of ["b"]. *)
Lemma C8_reinitialisation_changes_message :
  ((e <- construct LLMNotLoadedException (PyStr "a") ;;
    run_ops [Init LLMNotLoadedException e (PyStr "b")] ;;;
    getattr e "message") ∅).1
    = Ok (PyStr "[501] The LLM b was not loaded correctly")
  ∧ (message_of LLMNotLoadedException (PyStr "a") ∅).1
    = Ok (PyStr "[501] The LLM a was not loaded correctly").
Proof. split; vm_compute; reflexivity. Qed.

(** C8, amended: an instance is fixed as long as its own initialiser is
    not run on it again.  No constructor call, no initialiser run on
    another instance and no initialiser of another class changes it: after
    any such sequence of operations the instance is the same object
    state, and its [message] and [args] read as before. *)
Theorem C8_fixed_unless_reinitialised
    (ops : list module_op) (h : heap) (e : loc) (o : instance) :
  h !! e = Some o →
  (∀ v, Init (inst_class o) e v ∉ ops) →
  (run_ops ops h).2 !! e = Some o
  ∧ ((run_ops ops ;;; getattr e "message") h).1 = (getattr e "message" h).1
  ∧ ((run_ops ops ;;; get_args e) h).1 = (get_args e h).1.
Proof.
  intros He Hops.
  pose proof (run_ops_frame ops h e o He Hops) as Hfr.
  pose proof (run_ops_ok ops h) as Hok.
  split; [exact Hfr|].
  unfold bind, getattr, get_args.
  destruct (run_ops ops h) as [r h']. simpl in Hfr, Hok. subst r.
  rewrite Hfr, He.
  split; [destruct (inst_dict o !! "message")|]; reflexivity.
Qed.

Lemma C8_fixed_witness :
  (run_ops
     [Call StrategyNotFoundException (PyStr "x");
      Init StrategyNotFoundException 2%positive (PyStr "y");
      Init StrategyNotFoundException 1%positive (PyStr "z")]
     (construct LLMNotLoadedException (PyStr "a") ∅).2).2 !! 1%positive
  = Some (Instance LLMNotLoadedException [PyStr "a"]
            {["message" := PyStr "[501] The LLM a was not loaded correctly"]}).
Proof.
  refine (proj1 (C8_fixed_unless_reinitialised _ _ 1%positive _ _ _)).
  - vm_compute. reflexivity.
  - intros v Hin. simpl in Hin.
    rewrite !elem_of_cons, elem_of_nil in Hin.
    destruct Hin as [Hin|[Hin|[Hin|[]]]]; discriminate Hin.
Defined.

(** ** What the base class keeps *)

(** C9: the base initialiser receives the detail as it was passed.  For
    every string [d] the constructed instance's [args] are [(d,)], [str]
    of the instance is [d] and not the formatted text, and [message] is
    the only name in the instance dictionary.  That is the initialiser's
    doing: run on an object that was allocated with any other arguments,
    it leaves [args = (d,)] and [str] equal to [d] as well. *)
Theorem C9_base_keeps_raw_detail
    (tuple_str : list pyval → outcome string)
    (cls : ExnClass) (args0 : list pyval) (d : string) (h : heap) :
  (args_of cls (PyStr d) h).1 = Ok [PyStr d]
  ∧ (str_of tuple_str cls (PyStr d) h).1 = Ok d
  ∧ (message_of cls (PyStr d) h).1 ≠ Ok (PyStr d)
  ∧ ((e <- construct cls (PyStr d) ;; dict_keys e) h).1 = Ok {["message"]}
  ∧ ((e <- BaseException___new__ cls args0 ;;
      init_of cls e (PyStr d) ;;; get_args e) h).1
    = Ok [PyStr d]
  ∧ ((e <- BaseException___new__ cls args0 ;;
      init_of cls e (PyStr d) ;;; BaseException___str__ tuple_str e) h).1
    = Ok d.
Proof.
  assert (∀ A (k : loc → M A),
            ((e <- BaseException___new__ cls args0 ;;
              init_of cls e (PyStr d) ;;; k e) h)
            = k (fresh (dom h))
                (<[fresh (dom h) :=
                     Instance cls [PyStr d]
                       {["message" := PyStr (message_text cls d)]}]> h))
    as Hrun.
  { intros A k. unfold bind at 1. unfold BaseException___new__.
    unfold bind.
    rewrite (init_of_eq cls _ (PyStr d) _ _ (lookup_insert_eq _ _ _)).
    simpl. by rewrite insert_insert_eq, insert_empty. }
  rewrite !Hrun.
  unfold args_of, str_of, BaseException___str__, bind.
  rewrite (construct_ok cls (PyStr d) d) by reflexivity.
  unfold get_args, dict_keys. rewrite lookup_insert_eq. simpl.
  split; [reflexivity|]. split; [reflexivity|].
  split; [|split; [by rewrite dom_singleton_L | split; reflexivity]].
  rewrite (message_of_ok cls (PyStr d) d) by reflexivity.
  intros Heq. injection Heq as Hs.
  apply (f_equal String.length) in Hs.
  destruct cls; unfold message_text in Hs;
    rewrite !string_length_append in Hs; simpl in Hs; lia.
Qed.

(** ** Arguments that are not strings *)

(** C10, as stated, fails: not every value is accepted.  The f-string
    formats its argument, and an object whose [__format__] raises makes
    the constructor raise too. *)
Lemma C10_unformattable_value_rejected :
  (construct LLMNotLoadedException
     (PyObject (Raise "ValueError") (Raise "ValueError")) ∅).1
    = Raise "ValueError"
  ∧ ¬ (∀ cls v (h : heap), ∃ e h', construct cls v h = (Ok e, h')).
Proof.
  split; [vm_compute; reflexivity|].
  intros Hall.
  destruct (Hall LLMNotLoadedException
              (PyObject (Raise "ValueError") (Raise "ValueError")) ∅)
    as (e & h' & Heq).
  rewrite construct_eq in Heq. simpl in Heq. discriminate.
Qed.

(** C10, amended: the constructors accept every value that formats, not
    only strings (integers within the interpreter's digit limit, booleans
    and [None] among them).  For
    such a value construction succeeds and the formatted text stands at
    the detail's position in the class's template. *)
Theorem C10_formattable_values_accepted (v : pyval) (s : string) (h : heap) :
  py_format v = Ok s →
  (∀ cls, ∃ e h', construct cls v h = (Ok e, h'))
  ∧ (message_of LLMNotLoadedException v h).1
    = Ok (PyStr ("[501] The LLM " +:+ s +:+ " was not loaded correctly"))
  ∧ (message_of StrategyNotFoundException v h).1
    = Ok (PyStr ("[503] The selected strategy " +:+ s +:+ " doesn't exist"))
  ∧ (message_of QueryGenerationException v h).1
    = Ok (PyStr ("[502] Failed to generate query " +:+ s +:+ ".")).
Proof.
  intros Hf. repeat split.
  - intros cls. rewrite (construct_ok cls v s h Hf). eauto.
  - exact (message_of_ok LLMNotLoadedException v s h Hf).
  - exact (message_of_ok StrategyNotFoundException v s h Hf).
  - exact (message_of_ok QueryGenerationException v s h Hf).
Qed.

Lemma C10_integer_witness :
  py_format (PyInt 42) = Ok "42"
  ∧ (message_of LLMNotLoadedException (PyInt 42) ∅).1
    = Ok (PyStr "[501] The LLM 42 was not loaded correctly")
  ∧ (message_of QueryGenerationException (PyInt 42) ∅).1
    = Ok (PyStr "[502] Failed to generate query 42.").
Proof.
  split; [reflexivity|].
  pose proof (C10_formattable_values_accepted (PyInt 42) "42" ∅ eq_refl)
    as (_ & Hllm & _ & Hquery).
  split; [exact Hllm | exact Hquery].
Defined.

Example none_is_formatted :
  (message_of StrategyNotFoundException PyNone ∅).1
  = Ok (PyStr "[503] The selected strategy None doesn't exist").
Proof. vm_compute. reflexivity. Qed.

Example negative_integer_is_formatted :
  (message_of QueryGenerationException (PyInt (-7)) ∅).1
  = Ok (PyStr "[502] Failed to generate query -7.").
Proof. vm_compute. reflexivity. Qed.

(** ** Further properties of the three classes *)

Lemma string_append_inj_r (s1 s2 t : string) :
  s1 +:+ t = s2 +:+ t → s1 = s2.
Proof.
  revert s2. induction s1 as [|a s1 IH]; intros [|b s2] Heq.
  - reflexivity.
  - apply (f_equal String.length) in Heq.
    rewrite !string_length_append in Heq. simpl in Heq. lia.
  - apply (f_equal String.length) in Heq.
    rewrite !string_length_append in Heq. simpl in Heq. lia.
  - simpl in Heq. injection Heq as -> Heq. f_equal. by apply IH.
Qed.

Lemma substring_skip (p r : string) (n : nat) :
  substring (String.length p) n (p +:+ r) = substring 0 n r.
Proof. induction p as [|a p IH]; simpl; [reflexivity | exact IH]. Qed.

Lemma substring_take (s t : string) :
  substring 0 (String.length s) (s +:+ t) = s.
Proof.
  induction s as [|a s IH]; simpl.
  - destruct t; reflexivity.
  - by rewrite IH.
Qed.

Lemma message_text_inj cls1 cls2 d1 d2 :
  message_text cls1 d1 = message_text cls2 d2 → cls1 = cls2 ∧ d1 = d2.
Proof.
  destruct cls1, cls2; unfold message_text; intros Heq;
    try (simpl in Heq; discriminate);
    (split; [reflexivity|]);
    apply String.app_inj in Heq; by apply string_append_inj_r in Heq.
Qed.

(** X1: the message names both the class and the detail.  Two exceptions
    built from strings, in whatever stores, have equal messages exactly
    when they have the same class and the same detail: the three
    templates never produce each other's text, and within one class
    different details give different messages. *)
Theorem message_identifies_class_and_detail
    (cls1 cls2 : ExnClass) (d1 d2 : string) (h1 h2 : heap) :
  (message_of cls1 (PyStr d1) h1).1 = (message_of cls2 (PyStr d2) h2).1
  ↔ cls1 = cls2 ∧ d1 = d2.
Proof.
  rewrite (message_of_ok cls1 (PyStr d1) d1) by reflexivity.
  rewrite (message_of_ok cls2 (PyStr d2) d2) by reflexivity.
  split.
  - intros Heq. injection Heq as Heq. by apply message_text_inj.
  - intros [-> ->]. reflexivity.
Qed.

(** X2: where the detail stands in the message.  The message is longer
    than the detail by the fixed length of the class's template (39, 42
    and 32 characters), and the detail is the stretch of the message that
    starts after the template's opening words (at offset 14, 28 and 31). *)
Theorem detail_position_in_message (d : string) (h : heap) :
  (∃ t, (message_of LLMNotLoadedException (PyStr d) h).1 = Ok (PyStr t)
        ∧ String.length t = String.length d + 39
        ∧ substring 14 (String.length d) t = d)
  ∧ (∃ t, (message_of StrategyNotFoundException (PyStr d) h).1 = Ok (PyStr t)
          ∧ String.length t = String.length d + 42
          ∧ substring 28 (String.length d) t = d)
  ∧ (∃ t, (message_of QueryGenerationException (PyStr d) h).1 = Ok (PyStr t)
          ∧ String.length t = String.length d + 32
          ∧ substring 31 (String.length d) t = d).
Proof.
  split; [|split];
    (eexists; split;
       [apply (message_of_ok _ (PyStr d) d); reflexivity|]);
    unfold message_text; split.
  - rewrite !string_length_append. simpl. lia.
  - rewrite (substring_skip "[501] The LLM "). apply substring_take.
  - rewrite !string_length_append. simpl. lia.
  - rewrite (substring_skip "[503] The selected strategy "). apply substring_take.
  - rewrite !string_length_append. simpl. lia.
  - rewrite (substring_skip "[502] Failed to generate query "). apply substring_take.
Qed.

(** X3: a failure while formatting the argument passes through
    unchanged.  When [format] of the argument raises, the constructor of
    each class raises that same exception and returns no instance, and
    every object that was in the store is as it was. *)
Theorem format_failure_propagates
    (cls : ExnClass) (v : pyval) (x : string) (h : heap) :
  py_format v = Raise x →
  (construct cls v h).1 = Raise x
  ∧ ∀ e o, h !! e = Some o → (construct cls v h).2 !! e = Some o.
Proof.
  intros Hf. split.
  - rewrite construct_eq, Hf. reflexivity.
  - intros e o He. by apply construct_frame.
Qed.

Lemma format_failure_propagates_witness :
  (construct StrategyNotFoundException
     (PyObject (Raise "TypeError") (Ok "strategy")) ∅).1
  = Raise "TypeError".
Proof.
  exact (proj1 (format_failure_propagates StrategyNotFoundException
                  (PyObject (Raise "TypeError") (Ok "strategy"))
                  "TypeError" ∅ eq_refl)).
Defined.

(** X4: the initialiser hands the argument itself to the base class
    before anything else.  Run on an object that was allocated with any
    other arguments, it leaves [args = (v,)] -- the argument and not its
    text -- whether or not the f-string then fails, and [str] of the
    exception is [str] of the argument: the same for the three classes,
    without code or template.  On construction the reads fail only when
    the argument does not format. *)
Theorem base_keeps_argument
    (tuple_str : list pyval → outcome string)
    (cls : ExnClass) (args0 : list pyval) (v : pyval) (h : heap) :
  ((e <- BaseException___new__ cls args0 ;;
    attempt (init_of cls e v) ;;; get_args e) h).1
    = Ok [v]
  ∧ ((e <- BaseException___new__ cls args0 ;;
      attempt (init_of cls e v) ;;; BaseException___str__ tuple_str e) h).1
    = py_str v
  ∧ (args_of cls v h).1
    = match py_format v with Ok _ => Ok [v] | Raise x => Raise x end
  ∧ (str_of tuple_str cls v h).1
    = match py_format v with Ok _ => py_str v | Raise x => Raise x end.
Proof.
  split; [|split].
  - unfold bind, BaseException___new__, attempt.
    rewrite (init_of_eq cls _ v _ _ (lookup_insert_eq _ _ _)).
    unfold get_args.
    destruct (py_format v); simpl; by rewrite lookup_insert_eq.
  - unfold BaseException___str__, bind, BaseException___new__, attempt.
    rewrite (init_of_eq cls _ v _ _ (lookup_insert_eq _ _ _)).
    unfold get_args, lift.
    destruct (py_format v); simpl; rewrite lookup_insert_eq; simpl;
      by destruct (py_str v).
  - unfold args_of, str_of, BaseException___str__, bind.
    rewrite construct_eq.
    destruct (py_format v) as [s|x]; [|split; reflexivity].
    unfold get_args. rewrite lookup_insert_eq. simpl. split; reflexivity.
Qed.

(** X5: running the initialiser again on an instance replaces what the
    first run stored.  After [e = cls(d1)] and [e.__init__(d2)] the
    instance's [message] is the one [cls(d2)] would have, its [args] are
    [(d2,)], and [message] is still the only name in its dictionary. *)
Theorem reinitialisation_overwrites
    (cls : ExnClass) (d1 d2 : string) (h : heap) :
  ((e <- construct cls (PyStr d1) ;; init_of cls e (PyStr d2) ;;;
    getattr e "message") h).1
    = (message_of cls (PyStr d2) h).1
  ∧ ((e <- construct cls (PyStr d1) ;; init_of cls e (PyStr d2) ;;;
      get_args e) h).1
    = Ok [PyStr d2]
  ∧ ((e <- construct cls (PyStr d1) ;; init_of cls e (PyStr d2) ;;;
      dict_keys e) h).1
    = Ok {["message"]}.
Proof.
  rewrite (message_of_ok cls (PyStr d2) d2) by reflexivity.
  unfold bind. rewrite (construct_ok cls (PyStr d1) d1) by reflexivity.
  rewrite (init_of_eq cls _ (PyStr d2) _ _ (lookup_insert_eq _ _ _)). simpl.
  unfold getattr, get_args, dict_keys. rewrite !lookup_insert_eq. simpl.
  rewrite lookup_insert_eq. split; [reflexivity|]. split; [reflexivity|].
  rewrite insert_singleton_eq. by rewrite dom_singleton_L.
Qed.

(** X6: the initialiser is not atomic.  It hands the argument to the base
    class before it formats it, so when [e.__init__(v)] fails on an
    argument that does not format, the instance already has [args = (v,)]
    while its [message] is still the one built from the earlier detail. *)
Theorem failed_reinitialisation_leaves_stale_message
    (cls : ExnClass) (d : string) (v : pyval) (x : string) (h : heap) :
  py_format v = Raise x →
  ((e <- construct cls (PyStr d) ;; init_of cls e v) h).1 = Raise x
  ∧ ((e <- construct cls (PyStr d) ;; attempt (init_of cls e v) ;;;
      get_args e) h).1
    = Ok [v]
  ∧ ((e <- construct cls (PyStr d) ;; attempt (init_of cls e v) ;;;
      getattr e "message") h).1
    = (message_of cls (PyStr d) h).1.
Proof.
  intros Hf.
  rewrite (message_of_ok cls (PyStr d) d) by reflexivity.
  unfold bind, attempt. rewrite (construct_ok cls (PyStr d) d) by reflexivity.
  rewrite (init_of_eq cls _ v _ _ (lookup_insert_eq _ _ _)), Hf. simpl.
  unfold getattr, get_args. rewrite !lookup_insert_eq. simpl.
  rewrite lookup_singleton_eq. repeat split.
Qed.

Lemma failed_reinitialisation_witness :
  ((e <- construct LLMNotLoadedException (PyStr "gpt-sql-7b") ;;
    attempt (init_of LLMNotLoadedException e
               (PyObject (Raise "ValueError") (Ok "other"))) ;;;
    get_args e) ∅).1
    = Ok [PyObject (Raise "ValueError") (Ok "other")]
  ∧ ((e <- construct LLMNotLoadedException (PyStr "gpt-sql-7b") ;;
      attempt (init_of LLMNotLoadedException e
                 (PyObject (Raise "ValueError") (Ok "other"))) ;;;
      getattr e "message") ∅).1
    = (message_of LLMNotLoadedException (PyStr "gpt-sql-7b") ∅).1.
Proof.
  exact (proj2 (failed_reinitialisation_leaves_stale_message
                  LLMNotLoadedException "gpt-sql-7b"
                  (PyObject (Raise "ValueError") (Ok "other"))
                  "ValueError" ∅ eq_refl)).
Defined.

(** X7: the message sees the argument through its formatted text only.
    For any argument the message is the one the formatted text would give
    as a string, so an integer and the string of its digits, or [None]
    and the string of its name, give the same message; when the argument
    does not format there is no message but that failure. *)
Theorem message_depends_on_formatted_text
    (cls : ExnClass) (v : pyval) (h : heap) :
  (message_of cls v h).1
  = match py_format v with
    | Ok s => (message_of cls (PyStr s) h).1
    | Raise x => Raise x
    end.
Proof.
  destruct (py_format v) as [s|x] eqn:Hf.
  - rewrite (message_of_ok cls v s h Hf).
    by rewrite (message_of_ok cls (PyStr s) s).
  - by apply message_of_raise.
Qed.
